(** * The like toggle of flask-cafe: [static/js/likes.js]

    A shallow embedding of the three async functions of the script
    ([processLike], [likeCafe], [unlikeCafe]) and of the parts of the
    browser they talk to: the submit event, the two DOM nodes selected by
    [#like-form] and [#like-btn], [fetch], [Response.json], [JSON.stringify]
    and [console.log].

    An async function is a sequential program over a world (the event
    object and the page) which ends in one of three ways: it returns, it
    throws (its promise rejects and nobody catches it), or it stays
    suspended at an [await] whose promise never settles.  Every action the
    script performs on the outside is recorded, in order, in the events of
    the run. *)

From Stdlib Require Import String Ascii List Bool Arith.
From Stdlib Require Import Floats.SpecFloat.
From ExtLib Require Import Structures.Monad.
Import ListNotations.
Import MonadNotation.
Local Open Scope string_scope.
Local Open Scope monad_scope.

#[local] Set Warnings "-register-all".

(** ** JavaScript values *)

Module JS.

(** The values [JSON.parse] (hence [Response.json]) can produce.  A number
    is an IEEE 754 double.  An object lists its own properties in insertion
    order, every key once. *)
Inductive json : Type :=
| JNull
| JBool (b : bool)
| JNumber (x : spec_float)
| JString (s : string)
| JArray (items : list json)
| JObject (members : list (string * json)).

(** A JavaScript value that is either [undefined] ([None]) or a JSON
    value. *)
Definition value : Type := option json.

(** What the script can see thrown or rejected. *)
Inductive exn : Type :=
| TypeError (message : string)
| SyntaxError (message : string)
| DOMException (name message : string).

Fixpoint lookup {A : Type} (key : string) (members : list (string * A)) : option A :=
  match members with
  | [] => None
  | (k, v) :: rest => if String.eqb key k then Some v else lookup key rest
  end.

(** [ToBoolean] of ECMAScript: the falsy values are [undefined], [null],
    [false], [+0], [-0], [NaN] and the empty string. *)
Definition ToBoolean (v : value) : bool :=
  match v with
  | None => false
  | Some JNull => false
  | Some (JBool b) => b
  | Some (JNumber (S754_zero _)) => false
  | Some (JNumber S754_nan) => false
  | Some (JNumber _) => true
  | Some (JString s) => negb (String.eqb s "")
  | Some (JArray _) => true
  | Some (JObject _) => true
  end.

(** The property read [v.likes].  On [null] it throws (the message is V8's).
    On an object it is the own property if there is one; no prototype, no
    primitive wrapper and no array defines a property of that name, so
    everywhere else it is [undefined]. *)
Definition get_likes (v : json) : exn + value :=
  match v with
  | JNull => inl (TypeError "Cannot read properties of null (reading 'likes')")
  | JObject members => inr (lookup "likes" members)
  | _ => inr None
  end.

(** [ToString] as a template literal applies it to a value that is a string
    or [undefined]. *)
Definition ToString (v : option string) : string :=
  match v with
  | Some s => s
  | None => "undefined"
  end.

End JS.

Import JS.

(** ** [JSON.stringify]

    Strings are sequences of code units; here the code units are those
    below 256, one [ascii] each. *)

Module JSON.

Definition hex_digit (n : nat) : ascii :=
  match n with
  | 0 => "0" | 1 => "1" | 2 => "2" | 3 => "3" | 4 => "4" | 5 => "5" | 6 => "6" | 7 => "7"
  | 8 => "8" | 9 => "9" | 10 => "a" | 11 => "b" | 12 => "c" | 13 => "d" | 14 => "e" | _ => "f"
  end%char.

(** [UnicodeEscape]: backslash, u and four lowercase hexadecimal digits. *)
Definition UnicodeEscape (c : ascii) : string :=
  let n := nat_of_ascii c in
  String "\" (String "u" (String "0" (String "0"
    (String (hex_digit (n / 16)) (String (hex_digit (n mod 16)) EmptyString))))).

(** One code unit of [QuoteJSONString]: the seven characters of its table
    get their two-character escape, the other control characters a
    [UnicodeEscape], everything else stands for itself. *)
Definition quote_char (c : ascii) : string :=
  let n := nat_of_ascii c in
  if (n =? 8)%nat then "\b"
  else if (n =? 9)%nat then "\t"
  else if (n =? 10)%nat then "\n"
  else if (n =? 12)%nat then "\f"
  else if (n =? 13)%nat then "\r"
  else if (n =? 34)%nat then String "\" (String c EmptyString)
  else if (n =? 92)%nat then "\\"
  else if (n <? 32)%nat then UnicodeEscape c
  else String c EmptyString.

Fixpoint quote_chars (s : string) : string :=
  match s with
  | EmptyString => EmptyString
  | String c rest => quote_char c ++ quote_chars rest
  end.

Definition dquote : ascii := ascii_of_nat 34.

Definition QuoteJSONString (s : string) : string :=
  String dquote (quote_chars s ++ String dquote EmptyString).

(** [SerializeJSONProperty] on a value that is a string or [undefined]:
    [undefined] has no serialization. *)
Definition SerializeJSONProperty (v : option string) : option string :=
  option_map QuoteJSONString v.

(** The [key:value] entries of [SerializeJSONObject]: a property whose value
    has no serialization is left out. *)
Fixpoint partial (o : list (string * option string)) : list string :=
  match o with
  | [] => []
  | (k, v) :: rest =>
      match SerializeJSONProperty v with
      | Some str => (QuoteJSONString k ++ ":" ++ str) :: partial rest
      | None => partial rest
      end
  end.

(** [JSON.stringify(o)] with no replacer and no indentation, on a plain
    object [o] whose property values are strings or [undefined]. *)
Definition stringify (o : list (string * option string)) : string :=
  "{" ++ String.concat "," (partial o) ++ "}".

(** *** Reading the text back

    A reader for one corner of the JSON grammar: an object whose member
    values are strings, written without white space.  Every text it accepts
    is a JSON text, and it returns the members the text denotes. *)

Definition hex_value (c : ascii) : option nat :=
  let n := nat_of_ascii c in
  if ((48 <=? n) && (n <=? 57))%nat then Some (n - 48)
  else if ((97 <=? n) && (n <=? 102))%nat then Some (n - 87)
  else if ((65 <=? n) && (n <=? 70))%nat then Some (n - 55)
  else None.

(** The code unit written [\uXXXX], when it is below 256. *)
Definition hex4 (a b c d : ascii) : option ascii :=
  match hex_value a, hex_value b, hex_value c, hex_value d with
  | Some 0, Some 0, Some h, Some l => Some (ascii_of_nat (16 * h + l))
  | _, _, _, _ => None
  end.

Definition prepend (c : ascii) (r : option (string * string)) : option (string * string) :=
  match r with
  | Some (str, rest) => Some (String c str, rest)
  | None => None
  end.

(** The characters of a string literal, from after its opening quote up to
    its closing quote: the string denoted and the input that follows. *)
Fixpoint read_chars (s : string) : option (string * string) :=
  match s with
  | EmptyString => None
  | String c rest =>
      if Ascii.eqb c dquote then Some (EmptyString, rest)
      else if Ascii.eqb c "\" then
        match rest with
        | String e rest' =>
            if Ascii.eqb e "b" then prepend (ascii_of_nat 8) (read_chars rest')
            else if Ascii.eqb e "t" then prepend (ascii_of_nat 9) (read_chars rest')
            else if Ascii.eqb e "n" then prepend (ascii_of_nat 10) (read_chars rest')
            else if Ascii.eqb e "f" then prepend (ascii_of_nat 12) (read_chars rest')
            else if Ascii.eqb e "r" then prepend (ascii_of_nat 13) (read_chars rest')
            else if Ascii.eqb e dquote then prepend dquote (read_chars rest')
            else if Ascii.eqb e "\" then prepend "\" (read_chars rest')
            else if Ascii.eqb e "/" then prepend "/" (read_chars rest')
            else if Ascii.eqb e "u" then
              match rest' with
              | String h1 (String h2 (String h3 (String h4 rest''))) =>
                  match hex4 h1 h2 h3 h4 with
                  | Some c' => prepend c' (read_chars rest'')
                  | None => None
                  end
              | _ => None
              end
            else None
        | EmptyString => None
        end
      else if (nat_of_ascii c <? 32)%nat then None
      else prepend c (read_chars rest)
  end.

(** A string literal: the opening quote, then [read_chars]. *)
Definition read_string (s : string) : option (string * string) :=
  match s with
  | String c rest => if Ascii.eqb c dquote then read_chars rest else None
  | EmptyString => None
  end.

(** The members of an object after its opening brace, up to the closing
    brace. *)
Fixpoint read_members (fuel : nat) (s : string) : option (list (string * string) * string) :=
  match fuel with
  | 0 => None
  | S fuel' =>
      match read_string s with
      | Some (k, String colon s1) =>
          if Ascii.eqb colon ":" then
            match read_string s1 with
            | Some (v, String sep s2) =>
                if Ascii.eqb sep "}" then Some ([(k, v)], s2)
                else if Ascii.eqb sep "," then
                  match read_members fuel' s2 with
                  | Some (ms, s3) => Some ((k, v) :: ms, s3)
                  | None => None
                  end
                else None
            | _ => None
            end
          else None
      | _ => None
      end
  end.

(** The members of the object a text denotes; [None] when the text is not
    an object of strings. *)
Definition read_object (s : string) : option (list (string * string)) :=
  match s with
  | String "{" (String "}" EmptyString) => Some []
  | String "{" rest =>
      match read_members (String.length rest) rest with
      | Some (ms, EmptyString) => Some ms
      | _ => None
      end
  | _ => None
  end.

End JSON.

(** ** The browser as the script sees it *)

(** The argument of [fetch]: the URL and the members of the init object.
    A call with a URL alone is a GET without body or headers. *)
Record request : Type := {
  url : string;
  method : string;
  body : option string;
  headers : list (string * string)
}.

Definition GET (u : string) : request :=
  {| url := u; method := "GET"; body := None; headers := [] |}.

(** How a promise held by the runtime ends: it fulfils, it rejects, or it
    never settles. *)
Inductive settled (A : Type) : Type :=
| Fulfilled (a : A)
| Rejected (e : exn)
| Pending.
Arguments Fulfilled {A} a.
Arguments Rejected {A} e.
Arguments Pending {A}.

(** A [Response]: the script never looks at [status]; [json_body] is how
    the promise returned by [resp.json()] ends. *)
Record response : Type := {
  status : nat;
  json_body : settled json
}.

(** The server and the network between: how the promise returned by
    [fetch] ends, for each request. *)
Definition network : Type := request -> settled response.

(** What an [await] waits for. *)
Inductive awaited : Type :=
| ResponseTo (req : request)
| BodyOf (resp : response).

Record promise (A : Type) : Type := {
  origin : awaited;
  outcome : settled A
}.
Arguments origin {A} p.
Arguments outcome {A} p.

(** The actions of the script that the outside can observe, one constructor
    per kind of statement of the source. *)
Inductive event : Type :=
| EvPreventDefault
| EvDebugger
| EvAttr (selector name : string) (result : option string)
| EvText (selector text : string)
| EvFetch (req : request)
| EvJson (resp : response)
| EvAwait (what : awaited)
| EvLog (data : json).

(** The submit event and the page.  The page has the form [#like-form] the
    handler is bound to and the button [#like-btn]; the script touches
    nothing of them but the form's [cafe-id] attribute, which may be absent,
    and the button's text. *)
Record world : Type := {
  defaultPrevented : bool;
  like_form_cafe_id : option string;
  like_btn_text : string
}.

(** ** Async functions *)

(** How one invocation of an async function ends. *)
Inductive completion (A : Type) : Type :=
| Return (a : A)
| Throw (e : exn)
| Suspended.
Arguments Return {A} a.
Arguments Throw {A} e.
Arguments Suspended {A}.

(** One run: how it ends, the world it leaves, and what it did, oldest
    first. *)
Record run (A : Type) : Type := {
  result : completion A;
  after : world;
  events : list event
}.
Arguments result {A} r.
Arguments after {A} r.
Arguments events {A} r.

Definition async (A : Type) : Type := world -> run A.

#[export] Instance Monad_async : Monad async := {
  ret := fun A (a : A) w => {| result := Return a; after := w; events := [] |};
  bind := fun A B (c : async A) (k : A -> async B) w =>
    match c w with
    | {| result := Return a; after := w1; events := evs1 |} =>
        match k a w1 with
        | {| result := r; after := w2; events := evs2 |} =>
            {| result := r; after := w2; events := evs1 ++ evs2 |}
        end
    | {| result := Throw e; after := w1; events := evs1 |} =>
        {| result := Throw e; after := w1; events := evs1 |}
    | {| result := Suspended; after := w1; events := evs1 |} =>
        {| result := Suspended; after := w1; events := evs1 |}
    end
}.

Definition throw {A : Type} (e : exn) : async A :=
  fun w => {| result := Throw e; after := w; events := [] |}.

(** Suspended for good. *)
Definition never {A : Type} : async A :=
  fun w => {| result := Suspended; after := w; events := [] |}.

Definition read {A : Type} (field : world -> A) : async A :=
  fun w => {| result := Return (field w); after := w; events := [] |}.

Definition update (f : world -> world) : async unit :=
  fun w => {| result := Return tt; after := f w; events := [] |}.

Definition emit (e : event) : async unit :=
  fun w => {| result := Return tt; after := w; events := [e] |}.

(** [await p]: the function is suspended until [p] settles; a rejection is
    thrown at the [await]. *)
Definition await {A : Type} (p : promise A) : async A :=
  emit (EvAwait (origin p)) ;;
  match outcome p with
  | Fulfilled a => ret a
  | Rejected e => throw e
  | Pending => never
  end.

(** [evt.preventDefault()] *)
Definition preventDefault : async unit :=
  emit EvPreventDefault ;;
  update (fun w => {| defaultPrevented := true;
                      like_form_cafe_id := like_form_cafe_id w;
                      like_btn_text := like_btn_text w |}).

(** The [debugger] statement: a breakpoint, no effect on the program. *)
Definition debugger : async unit := emit EvDebugger.

(** [$("#like-form").attr("cafe-id")]: the attribute's value, [undefined]
    when the form has no such attribute. *)
Definition like_form_attr_cafe_id : async (option string) :=
  v <- read like_form_cafe_id ;;
  emit (EvAttr "#like-form" "cafe-id" v) ;;
  ret v.

(** [$("#like-btn").text(s)] *)
Definition like_btn_set_text (s : string) : async unit :=
  emit (EvText "#like-btn" s) ;;
  update (fun w => {| defaultPrevented := defaultPrevented w;
                      like_form_cafe_id := like_form_cafe_id w;
                      like_btn_text := s |}).

(** [console.log(data)] *)
Definition console_log (data : json) : async unit := emit (EvLog data).

(** A completion of the language inside an async function: an exception
    rejects the function's promise. *)
Definition lift {A : Type} (r : exn + A) : async A :=
  match r with
  | inl e => throw e
  | inr a => ret a
  end.

(** The init object both mutations pass to [fetch], with its URL. *)
Definition POST (u : string) (cafeId : option string) : request :=
  {| url := u;
     method := "POST";
     body := Some (JSON.stringify [("cafe_id", cafeId)]);
     headers := [("Content-Type", "application/json")] |}.

(** ** The script *)

Section Script.

Variable net : network.

(** [fetch(req)]: the request leaves at the call; the promise ends as the
    network decides. *)
Definition fetch (req : request) : async (promise response) :=
  emit (EvFetch req) ;;
  ret {| origin := ResponseTo req; outcome := net req |}.

(** [resp.json()] *)
Definition json_of (resp : response) : async (promise json) :=
  emit (EvJson resp) ;;
  ret {| origin := BodyOf resp; outcome := json_body resp |}.

(** likeCafe: updates UI to show "Unlike" & updates DB *)
Definition likeCafe (cafeId : option string) : async unit :=
  like_btn_set_text "Liked" ;;
  p <- fetch (POST "/api/like" cafeId) ;;
  resp <- await p ;;
  q <- json_of resp ;;
  data <- await q ;;
  console_log data.

(** unlikeCafe: updates UI to show "Like" & updates DB *)
Definition unlikeCafe (cafeId : option string) : async unit :=
  like_btn_set_text "Like" ;;
  p <- fetch (POST "/api/unlike" cafeId) ;;
  resp <- await p ;;
  q <- json_of resp ;;
  data <- await q ;;
  console_log data.

(** ProcessLike: handles liking and unliking a cafe via button.  The two
    calls at its end are awaited: their completion is its own. *)
Definition processLike : async unit :=
  preventDefault ;;
  debugger ;;
  cafeId <- like_form_attr_cafe_id ;;
  p <- fetch (GET ("/api/likes?cafe_id=" ++ ToString cafeId)) ;;
  resp <- await p ;;
  q <- json_of resp ;;
  likedData <- await q ;;
  liked <- lift (get_likes likedData) ;;
  if ToBoolean liked then unlikeCafe cafeId else likeCafe cafeId.

End Script.

(** ** Reading a run *)

(** The requests a run sent, oldest first. *)
Fixpoint fetches (evs : list event) : list request :=
  match evs with
  | [] => []
  | EvFetch req :: rest => req :: fetches rest
  | _ :: rest => fetches rest
  end.

(** A request to one of the two endpoints that change the likes. *)
Definition is_mutation (req : request) : bool :=
  String.eqb (url req) "/api/like" || String.eqb (url req) "/api/unlike".

Definition mutations (evs : list event) : list request :=
  filter is_mutation (fetches evs).

(** The texts written to the page, oldest first. *)
Fixpoint texts (evs : list event) : list (string * string) :=
  match evs with
  | [] => []
  | EvText sel s :: rest => (sel, s) :: texts rest
  | _ :: rest => texts rest
  end.

(** The state query [processLike] sends from the world [w]. *)
Definition query (w : world) : request :=
  GET ("/api/likes?cafe_id=" ++ ToString (like_form_cafe_id w)).

(** The world once the default action is prevented. *)
Definition prevented (w : world) : world :=
  {| defaultPrevented := true;
     like_form_cafe_id := like_form_cafe_id w;
     like_btn_text := like_btn_text w |}.

(** What [processLike] does up to and including the [await] of the state
    query's response. *)
Definition asking (w : world) : list event :=
  [EvPreventDefault; EvDebugger;
   EvAttr "#like-form" "cafe-id" (like_form_cafe_id w);
   EvFetch (query w); EvAwait (ResponseTo (query w))].

(** The state query fails with [e]: the [fetch] rejects, or the body of its
    response does not parse. *)
Definition query_fails (net : network) (w : world) (e : exn) : Prop :=
  net (query w) = Rejected e \/
  exists resp, net (query w) = Fulfilled resp /\ json_body resp = Rejected e.

(** The world once the button shows [s]. *)
Definition showing (s : string) (w : world) : world :=
  {| defaultPrevented := defaultPrevented w;
     like_form_cafe_id := like_form_cafe_id w;
     like_btn_text := s |}.

(** The run [r] as the rest of a run that did [evs] before. *)
Definition preceded_by {A : Type} (evs : list event) (r : run A) : run A :=
  {| result := result r; after := after r; events := evs ++ events r |}.

(** What a mutation does up to and including the [await] of its response. *)
Definition posting (label : string) (req : request) : list event :=
  [EvText "#like-btn" label; EvFetch req; EvAwait (ResponseTo req)].

(** *** Pages and servers to run the script on *)

Definition page (cafe_id : option string) (label : string) : world :=
  {| defaultPrevented := false; like_form_cafe_id := cafe_id; like_btn_text := label |}.

Definition ok (v : json) : settled response :=
  Fulfilled {| status := 200; json_body := Fulfilled v |}.

(** A server that answers the state query with the body [v] and every
    mutation with the body [{"ok": true}]. *)
Definition answering (v : json) : network :=
  fun req => if String.eqb (method req) "GET" then ok v else ok (JObject [("ok", JBool true)]).

(** A network on which every [fetch] rejects. *)
Definition offline : network :=
  fun _ => Rejected (TypeError "Failed to fetch").

(** A server that answers the state query but never a mutation. *)
Definition stalling (v : json) : network :=
  fun req => if String.eqb (method req) "GET" then ok v else Pending.

(** A server that answers every request with the status [n] and the body
    [v]. *)
Definition replying (n : nat) (v : json) : network :=
  fun _ => Fulfilled {| status := n; json_body := Fulfilled v |}.

(** A server that answers the state query with the body [v] and on which
    every mutation fails with [e]. *)
Definition failing (v : json) (e : exn) : network :=
  fun req => if String.eqb (method req) "GET" then ok v else Rejected e.

(** A network on which no [fetch] ever settles. *)
Definition hanging : network := fun _ => Pending.

(** ** More to read from a run *)

(** What [console.log] printed, oldest first. *)
Fixpoint logs (evs : list event) : list json :=
  match evs with
  | [] => []
  | EvLog data :: rest => data :: logs rest
  | _ :: rest => logs rest
  end.

(** The write to the page that goes with a mutation request. *)
Definition label_of (req : request) : string * string :=
  ("#like-btn", if String.eqb (url req) "/api/like" then "Liked" else "Like").

(** How the promise of a [fetch] ends as far as the body goes: the
    response without its status. *)
Definition body_of (o : settled response) : settled (settled json) :=
  match o with
  | Fulfilled resp => Fulfilled (json_body resp)
  | Rejected e => Rejected e
  | Pending => Pending
  end.

(** The mutation [processLike] chooses on the value [liked] of the field. *)
Definition chosen (liked : value) (cafeId : option string) : request :=
  POST (if ToBoolean liked then "/api/unlike" else "/api/like") cafeId.

(** The request [req] fails with [e]: its [fetch] rejects, or the body of
    its response does not parse. *)
Definition fails (net : network) (req : request) (e : exn) : Prop :=
  net req = Rejected e \/
  exists resp, net req = Fulfilled resp /\ json_body resp = Rejected e.

(** The request [req] hangs: its [fetch] never settles, or the body of its
    response never arrives. *)
Definition hangs (net : network) (req : request) : Prop :=
  net req = Pending \/
  exists resp, net req = Fulfilled resp /\ json_body resp = Pending.

(** ** The handler on the form

    [$("#like-form").on("submit", processLike)]: every submit event of the
    form calls [processLike] with that event, a new one whose default is
    not prevented yet, on the page as the earlier submissions left it. *)
Definition on_submit (net : network) (w : world) : run unit :=
  processLike net {| defaultPrevented := false;
                     like_form_cafe_id := like_form_cafe_id w;
                     like_btn_text := like_btn_text w |}.

Section Server.

(** A server with a state: what a request makes of the state, and how the
    promise of its [fetch] ends. *)
Variable state : Type.
Variable serve : state -> request -> state * settled response.

(** The network one submission meets when it starts with the server in
    [s].  Requests are served in the order they leave; [processLike] sends
    the state query first and a mutation, if any, second: the query is
    answered in [s], the mutation in the state the query left. *)
Definition meeting (s : state) (w : world) : network :=
  fun req =>
    if is_mutation req then snd (serve (fst (serve s (query w))) req)
    else snd (serve s req).

(** The server once it has served the requests [reqs], oldest first. *)
Definition served (s : state) (reqs : list request) : state :=
  fold_left (fun s' req => fst (serve s' req)) reqs s.

(** One submission, run to its end before the next one: the server and the
    page it leaves. *)
Definition submission (sw : state * world) : state * world :=
  let r := on_submit (meeting (fst sw) (snd sw)) (snd sw) in
  (served (fst sw) (fetches (events r)), after r).

(** [n] submissions, one after the other. *)
Fixpoint submissions (n : nat) (sw : state * world) : state * world :=
  match n with
  | 0 => sw
  | S n' => submissions n' (submission sw)
  end.

End Server.
Arguments meeting {state} serve s w req.
Arguments served {state} serve s reqs.
Arguments submission {state} serve sw.
Arguments submissions {state} serve n sw.

(** A server that stores the like (its state) of the one user for the one
    cafe, and answers as the script expects. *)
Definition like_store (liked : bool) (req : request) : bool * settled response :=
  if String.eqb (url req) "/api/like" then (true, ok (JObject [("liked", JBool true)]))
  else if String.eqb (url req) "/api/unlike" then (false, ok (JObject [("unliked", JBool true)]))
  else (liked, ok (JObject [("likes", JBool liked)])).

(** * Properties *)

(** ** [JSON.stringify] writes JSON *)

Module JSONFacts.
Import JSON.

Lemma append_assoc (a b c : string) : (a ++ b) ++ c = a ++ (b ++ c).
Proof.
  induction a as [| x a IH]; cbn [append]; [reflexivity | now rewrite IH].
Qed.

Lemma read_chars_quote_char c t :
  read_chars (quote_char c ++ t) = prepend c (read_chars t).
Proof.
  destruct c as [[] [] [] [] [] [] [] []]; reflexivity.
Qed.

Lemma read_chars_quote_chars s rest :
  read_chars (quote_chars s ++ String dquote rest) = Some (s, rest).
Proof.
  induction s as [| c s IH]; cbn [quote_chars].
  - reflexivity.
  - rewrite append_assoc, read_chars_quote_char, IH. reflexivity.
Qed.

Lemma read_string_quote s rest :
  read_string (QuoteJSONString s ++ rest) = Some (s, rest).
Proof.
  unfold QuoteJSONString. cbn [append read_string].
  change (Ascii.eqb dquote dquote) with true. cbn iota.
  rewrite append_assoc. apply read_chars_quote_chars.
Qed.

Lemma read_members_one n k v rest :
  read_members (S n) (QuoteJSONString k ++ String ":" (QuoteJSONString v ++ String "}" rest))
  = Some ([(k, v)], rest).
Proof.
  cbn [read_members]. rewrite read_string_quote. cbn [Ascii.eqb Bool.eqb].
  rewrite read_string_quote. reflexivity.
Qed.

(** The text written for an object with one string property reads back as
    that object. *)
Lemma read_object_stringify_one k v :
  read_object (stringify [(k, Some v)]) = Some [(k, v)].
Proof.
  unfold stringify. cbn [partial SerializeJSONProperty option_map String.concat].
  rewrite !append_assoc.
  unfold QuoteJSONString at 1. cbn [append].
  change (read_object _) with
    (match read_members (String.length (QuoteJSONString k ++ ":" ++ QuoteJSONString v ++ "}"))
             (QuoteJSONString k ++ ":" ++ QuoteJSONString v ++ "}" ++ "") with
     | Some (ms, EmptyString) => Some ms
     | _ => None
     end).
  unfold QuoteJSONString at 1. cbn [append String.length].
  rewrite read_members_one. reflexivity.
Qed.

(** An object whose only property is [undefined] is written as the empty
    object. *)
Lemma stringify_undefined k : stringify [(k, None)] = "{}".
Proof. reflexivity. Qed.

End JSONFacts.

Ltac branch net :=
  repeat match goal with
    | |- context [net ?req] =>
        let E := fresh "Enet" in destruct (net req) as [? | ? | ] eqn:E; cbn
    | |- context [json_body ?resp] =>
        let E := fresh "Ebody" in destruct (json_body resp) as [? | ? | ] eqn:E; cbn
    | |- context [get_likes ?v] =>
        let E := fresh "Eget" in destruct (get_likes v) as [? | ?] eqn:E; cbn
    | |- context [ToBoolean ?v] =>
        let E := fresh "Etruthy" in destruct (ToBoolean v) eqn:E; cbn
    end.

(** ** Reading a run made of two parts *)

Lemma fetches_app evs1 evs2 : fetches (evs1 ++ evs2) = (fetches evs1 ++ fetches evs2)%list.
Proof.
  induction evs1 as [| [] evs1 IH]; cbn [fetches app]; try assumption.
  - reflexivity.
  - now rewrite IH.
Qed.

Lemma mutations_app evs1 evs2 : mutations (evs1 ++ evs2) = (mutations evs1 ++ mutations evs2)%list.
Proof. unfold mutations. now rewrite fetches_app, filter_app. Qed.

Lemma texts_app evs1 evs2 : texts (evs1 ++ evs2) = (texts evs1 ++ texts evs2)%list.
Proof.
  induction evs1 as [| [] evs1 IH]; cbn [texts app]; try assumption.
  - reflexivity.
  - now rewrite IH.
Qed.

(** Up to the parsed answer the handler sends the state query only, and
    writes nothing. *)
Lemma asking_mutations w evs :
  fetches evs = [] -> mutations (asking w ++ evs) = [].
Proof.
  intros H. unfold mutations. rewrite fetches_app, H. reflexivity.
Qed.

Lemma asking_texts w evs : texts (asking w ++ evs) = texts evs.
Proof. reflexivity. Qed.

(** ** The two mutations *)

Section Mutations.

Variable net : network.

(** What both mutations have in common, whatever the network answers. *)
Lemma likeCafe_label cafeId w :
  like_btn_text (after (likeCafe net cafeId w)) = "Liked".
Proof. unfold likeCafe. cbn. branch net; reflexivity. Qed.

Lemma unlikeCafe_label cafeId w :
  like_btn_text (after (unlikeCafe net cafeId w)) = "Like".
Proof. unfold unlikeCafe. cbn. branch net; reflexivity. Qed.

Lemma likeCafe_fetches cafeId w :
  fetches (events (likeCafe net cafeId w)) = [POST "/api/like" cafeId].
Proof. unfold likeCafe. cbn. branch net; reflexivity. Qed.

Lemma unlikeCafe_fetches cafeId w :
  fetches (events (unlikeCafe net cafeId w)) = [POST "/api/unlike" cafeId].
Proof. unfold unlikeCafe. cbn. branch net; reflexivity. Qed.

Lemma likeCafe_texts cafeId w :
  texts (events (likeCafe net cafeId w)) = [("#like-btn", "Liked")].
Proof. unfold likeCafe. cbn. branch net; reflexivity. Qed.

Lemma unlikeCafe_texts cafeId w :
  texts (events (unlikeCafe net cafeId w)) = [("#like-btn", "Like")].
Proof. unfold unlikeCafe. cbn. branch net; reflexivity. Qed.

Lemma likeCafe_mutations cafeId w :
  mutations (events (likeCafe net cafeId w)) = [POST "/api/like" cafeId].
Proof. unfold mutations. now rewrite likeCafe_fetches. Qed.

Lemma unlikeCafe_mutations cafeId w :
  mutations (events (unlikeCafe net cafeId w)) = [POST "/api/unlike" cafeId].
Proof. unfold mutations. now rewrite unlikeCafe_fetches. Qed.

(** C3: in every run of [likeCafe] and of [unlikeCafe] the write of the
    button's text is the first event, the POST leaves next, and only then
    comes the await of its response; when the response never arrives the
    run stays suspended at that await, with the new text on the page. *)
Theorem label_written_before_await cafeId w :
  (exists rest,
      events (likeCafe net cafeId w)
      = (posting "Liked" (POST "/api/like" cafeId) ++ rest)%list)
  /\ (net (POST "/api/like" cafeId) = Pending ->
      likeCafe net cafeId w =
      {| result := Suspended; after := showing "Liked" w;
         events := posting "Liked" (POST "/api/like" cafeId) |})
  /\ (exists rest,
      events (unlikeCafe net cafeId w)
      = (posting "Like" (POST "/api/unlike" cafeId) ++ rest)%list)
  /\ (net (POST "/api/unlike" cafeId) = Pending ->
      unlikeCafe net cafeId w =
      {| result := Suspended; after := showing "Like" w;
         events := posting "Like" (POST "/api/unlike" cafeId) |}).
Proof.
  repeat split.
  - unfold likeCafe, posting. cbn. branch net; eexists; reflexivity.
  - intros H. unfold likeCafe, posting. cbn in *. rewrite H. reflexivity.
  - unfold unlikeCafe, posting. cbn. branch net; eexists; reflexivity.
  - intros H. unfold unlikeCafe, posting. cbn in *. rewrite H. reflexivity.
Qed.

End Mutations.

(** C8: the text the button shows after [likeCafe], and after
    [unlikeCafe], is the same on any two networks: no status and no body of
    the mutation's response (and no failure of it) changes it. *)
Theorem label_independent_of_mutation_response (net1 net2 : network) cafeId w :
  like_btn_text (after (likeCafe net1 cafeId w))
  = like_btn_text (after (likeCafe net2 cafeId w))
  /\ like_btn_text (after (unlikeCafe net1 cafeId w))
     = like_btn_text (after (unlikeCafe net2 cafeId w)).
Proof.
  split.
  - now rewrite !likeCafe_label.
  - now rewrite !unlikeCafe_label.
Qed.

Section Handler.

Variable net : network.

Ltac script :=
  unfold processLike, query, asking, preceded_by in *; cbn in *;
  repeat match goal with
    | H : net _ = _ |- _ => rewrite H; cbn
    | H : json_body _ = _ |- _ => rewrite H; cbn
    | H : get_likes _ = _ |- _ => rewrite H; cbn
    end.

(** The handler by cases on how the state query ends. *)
Lemma processLike_rejected w e :
  net (query w) = Rejected e ->
  processLike net w = {| result := Throw e; after := prevented w; events := asking w |}.
Proof. intros H. script. reflexivity. Qed.

Lemma processLike_pending w :
  net (query w) = Pending ->
  processLike net w = {| result := Suspended; after := prevented w; events := asking w |}.
Proof. intros H. script. reflexivity. Qed.

Lemma processLike_body_rejected w resp e :
  net (query w) = Fulfilled resp -> json_body resp = Rejected e ->
  processLike net w =
  {| result := Throw e; after := prevented w;
     events := asking w ++ [EvJson resp; EvAwait (BodyOf resp)] |}.
Proof. intros H1 H2. script. reflexivity. Qed.

Lemma processLike_body_pending w resp :
  net (query w) = Fulfilled resp -> json_body resp = Pending ->
  processLike net w =
  {| result := Suspended; after := prevented w;
     events := asking w ++ [EvJson resp; EvAwait (BodyOf resp)] |}.
Proof. intros H1 H2. script. reflexivity. Qed.

Lemma processLike_read_throws w resp v e :
  net (query w) = Fulfilled resp -> json_body resp = Fulfilled v ->
  get_likes v = inl e ->
  processLike net w =
  {| result := Throw e; after := prevented w;
     events := asking w ++ [EvJson resp; EvAwait (BodyOf resp)] |}.
Proof. intros H1 H2 H3. script. reflexivity. Qed.

Lemma processLike_answered w resp v liked :
  net (query w) = Fulfilled resp -> json_body resp = Fulfilled v ->
  get_likes v = inr liked ->
  processLike net w =
  preceded_by (asking w ++ [EvJson resp; EvAwait (BodyOf resp)])
    ((if ToBoolean liked then unlikeCafe net else likeCafe net)
       (like_form_cafe_id w) (prevented w)).
Proof.
  intros H1 H2 H3. unfold processLike, query, asking, preceded_by in *.
  cbn -[likeCafe unlikeCafe] in *. rewrite H1. cbn -[likeCafe unlikeCafe].
  rewrite H2. cbn -[likeCafe unlikeCafe]. rewrite H3. cbn -[likeCafe unlikeCafe].
  destruct (ToBoolean liked).
  - destruct (unlikeCafe _ _ _); reflexivity.
  - destruct (likeCafe _ _ _); reflexivity.
Qed.

(** After a parsed answer whose [likes] can be read, one mutation runs. *)
Lemma processLike_answered_does w resp v liked :
  net (query w) = Fulfilled resp -> json_body resp = Fulfilled v ->
  get_likes v = inr liked ->
  mutations (events (processLike net w))
  = [POST (if ToBoolean liked then "/api/unlike" else "/api/like") (like_form_cafe_id w)]
  /\ texts (events (processLike net w))
     = [("#like-btn", if ToBoolean liked then "Like" else "Liked")]
  /\ like_btn_text (after (processLike net w))
     = (if ToBoolean liked then "Like" else "Liked").
Proof.
  intros H1 H2 H3. rewrite (processLike_answered w resp v liked H1 H2 H3).
  unfold preceded_by. cbn [events after].
  rewrite mutations_app, texts_app, asking_mutations, asking_texts by reflexivity.
  destruct (ToBoolean liked); cbn [app texts].
  - now rewrite unlikeCafe_mutations, unlikeCafe_texts, unlikeCafe_label.
  - now rewrite likeCafe_mutations, likeCafe_texts, likeCafe_label.
Qed.

(** Every mutation request of a run of the handler is the POST of
    [likeCafe] or that of [unlikeCafe], made from the value read from the
    form. *)
Lemma processLike_mutation_is_POST w req :
  In req (mutations (events (processLike net w))) ->
  req = POST "/api/like" (like_form_cafe_id w)
  \/ req = POST "/api/unlike" (like_form_cafe_id w).
Proof.
  destruct (net (query w)) as [resp | e | ] eqn:H1.
  - destruct (json_body resp) as [v | e | ] eqn:H2.
    + destruct (get_likes v) as [e | liked] eqn:H3.
      * rewrite (processLike_read_throws w resp v e H1 H2 H3). intros [].
      * destruct (processLike_answered_does w resp v liked H1 H2 H3) as [-> _].
        destruct (ToBoolean liked); intros [<- | []]; auto.
    + rewrite (processLike_body_rejected w resp e H1 H2). intros [].
    + rewrite (processLike_body_pending w resp H1 H2). intros [].
  - rewrite (processLike_rejected w e H1). intros [].
  - rewrite (processLike_pending w H1). intros [].
Qed.

(** ** The handler's contract *)

(** C7: in every run of [processLike] the first thing done is
    [evt.preventDefault()], before any request leaves, and the event's
    default stays prevented however the run ends. *)
Theorem default_prevented_first w :
  defaultPrevented (after (processLike net w)) = true
  /\ exists rest, events (processLike net w) = EvPreventDefault :: rest.
Proof.
  unfold processLike, likeCafe, unlikeCafe. cbn.
  branch net; split; try reflexivity; eexists; reflexivity.
Qed.

(** C1, as the code has it: when the state query is answered with a body
    whose [likes] is [true], the run sends exactly one mutation request, a
    POST to [/api/unlike], and the button shows "Like"; when the form
    carries the [cafe-id] attribute, the body of that POST carries the
    attribute's value under [cafe_id]. *)
Theorem likes_true_unlikes_once w resp members :
  net (query w) = Fulfilled resp ->
  json_body resp = Fulfilled (JObject members) ->
  lookup "likes" members = Some (JBool true) ->
  exists req,
    mutations (events (processLike net w)) = [req]
    /\ url req = "/api/unlike"
    /\ method req = "POST"
    /\ like_btn_text (after (processLike net w)) = "Like"
    /\ forall s, like_form_cafe_id w = Some s ->
         exists text, body req = Some text
                      /\ JSON.read_object text = Some [("cafe_id", s)].
Proof.
  intros H1 H2 H3.
  assert (Hget : get_likes (JObject members) = inr (Some (JBool true)))
    by (cbn [get_likes]; now rewrite H3).
  destruct (processLike_answered_does w resp _ _ H1 H2 Hget) as (Hm & _ & Hl).
  exists (POST "/api/unlike" (like_form_cafe_id w)).
  split; [exact Hm |]. split; [reflexivity |]. split; [reflexivity |].
  split; [exact Hl |].
  intros s ->. eexists. split; [reflexivity |].
  apply JSONFacts.read_object_stringify_one.
Qed.

(** C2: when the state query is answered with a body whose [likes] is
    [false], the run sends exactly one mutation request, a POST to
    [/api/like], and the button shows "Liked". *)
Theorem likes_false_likes_once w resp members :
  net (query w) = Fulfilled resp ->
  json_body resp = Fulfilled (JObject members) ->
  lookup "likes" members = Some (JBool false) ->
  exists req,
    mutations (events (processLike net w)) = [req]
    /\ url req = "/api/like"
    /\ method req = "POST"
    /\ like_btn_text (after (processLike net w)) = "Liked".
Proof.
  intros H1 H2 H3.
  assert (Hget : get_likes (JObject members) = inr (Some (JBool false)))
    by (cbn [get_likes]; now rewrite H3).
  destruct (processLike_answered_does w resp _ _ H1 H2 Hget) as (Hm & _ & Hl).
  exists (POST "/api/like" (like_form_cafe_id w)).
  split; [exact Hm |]. split; [reflexivity |]. split; [reflexivity | exact Hl].
Qed.

(** C4: when the state query fails (its [fetch] rejects, or the body of its
    response does not parse), the run throws that failure, sends no request
    to [/api/like] or [/api/unlike], writes no text, and the button keeps
    the text it had. *)
Theorem query_failure_changes_nothing w e :
  query_fails net w e ->
  result (processLike net w) = Throw e
  /\ mutations (events (processLike net w)) = []
  /\ texts (events (processLike net w)) = []
  /\ like_btn_text (after (processLike net w)) = like_btn_text w.
Proof.
  intros [H | (resp & H1 & H2)].
  - rewrite (processLike_rejected w e H). repeat split.
  - rewrite (processLike_body_rejected w resp e H1 H2). repeat split.
Qed.

(** C5, as the code has it: of the parsed bodies without a [likes] field
    only [null] is an unhandled error: the read of the field throws a
    TypeError, and the run ends there without a mutation request and
    without a write to the page.  On every other body without the field (an
    object that has no such key, or a boolean, a number, a string, an
    array) the read gives [undefined]: the run takes the like path, writes
    "Liked" and sends one mutation request, a POST to [/api/like]. *)
Theorem missing_likes_field w resp v :
  net (query w) = Fulfilled resp ->
  json_body resp = Fulfilled v ->
  (v = JNull ->
     (exists message, result (processLike net w) = Throw (TypeError message))
     /\ mutations (events (processLike net w)) = []
     /\ texts (events (processLike net w)) = []
     /\ like_btn_text (after (processLike net w)) = like_btn_text w)
  /\ (v <> JNull ->
      (forall members, v = JObject members -> lookup "likes" members = None) ->
      get_likes v = inr None
      /\ (exists req,
             mutations (events (processLike net w)) = [req]
             /\ url req = "/api/like"
             /\ method req = "POST")
      /\ texts (events (processLike net w)) = [("#like-btn", "Liked")]
      /\ like_btn_text (after (processLike net w)) = "Liked").
Proof.
  intros H1 H2. split.
  - intros ->.
    rewrite (processLike_read_throws w resp JNull _ H1 H2 eq_refl).
    repeat split. eexists. reflexivity.
  - intros Hv Hno.
    assert (H3 : get_likes v = inr None).
    { destruct v as [| b | x | str | items | members]; try reflexivity.
      - now destruct Hv.
      - cbn [get_likes]. now rewrite (Hno members eq_refl). }
    destruct (processLike_answered_does w resp v None H1 H2 H3) as (Hm & Ht & Hl).
    split; [exact H3 |]. split; [| split; [exact Ht | exact Hl]].
    exists (POST "/api/like" (like_form_cafe_id w)).
    split; [exact Hm |]. split; reflexivity.
Qed.

(** C9, as the code has it: for every parsed body other than [null] the
    handler reads [likes] and branches on its truthiness: the rest of the
    run is the run of [unlikeCafe] when the value is truthy and that of
    [likeCafe] otherwise, so exactly one mutation request leaves; an object
    without a [likes] field takes the like path. *)
Theorem branches_on_truthiness w resp v :
  net (query w) = Fulfilled resp ->
  json_body resp = Fulfilled v ->
  v <> JNull ->
  exists liked,
    get_likes v = inr liked
    /\ processLike net w =
       preceded_by (asking w ++ [EvJson resp; EvAwait (BodyOf resp)])
         ((if ToBoolean liked then unlikeCafe net else likeCafe net)
            (like_form_cafe_id w) (prevented w))
    /\ mutations (events (processLike net w))
       = [POST (if ToBoolean liked then "/api/unlike" else "/api/like")
            (like_form_cafe_id w)]
    /\ forall members, v = JObject members -> lookup "likes" members = None ->
         liked = None
         /\ mutations (events (processLike net w))
            = [POST "/api/like" (like_form_cafe_id w)].
Proof.
  intros H1 H2 Hv.
  assert (Hget : exists liked, get_likes v = inr liked)
    by (destruct v; try (eexists; reflexivity); now destruct Hv).
  destruct Hget as [liked Hget]. exists liked.
  destruct (processLike_answered_does w resp v liked H1 H2 Hget) as (Hm & _ & _).
  repeat split.
  - exact Hget.
  - exact (processLike_answered w resp v liked H1 H2 Hget).
  - exact Hm.
  - subst v. cbn [get_likes] in Hget. congruence.
  - subst v. cbn [get_likes] in Hget. rewrite Hm.
    replace liked with (@None json) by congruence. reflexivity.
Qed.

(** C6, as the code has it: when the form carries the [cafe-id] attribute,
    every mutation request of a run is a POST with the header
    [Content-Type: application/json] whose body is JSON: an object with the
    single key [cafe_id], its value the attribute's. *)
Theorem mutation_body_is_cafe_id_json w s req :
  like_form_cafe_id w = Some s ->
  In req (mutations (events (processLike net w))) ->
  method req = "POST"
  /\ headers req = [("Content-Type", "application/json")]
  /\ exists text, body req = Some text
                  /\ JSON.read_object text = Some [("cafe_id", s)].
Proof.
  intros Hs Hin.
  destruct (processLike_mutation_is_POST w req Hin) as [-> | ->];
    rewrite Hs; repeat split; eexists; (split; [reflexivity |]);
    apply JSONFacts.read_object_stringify_one.
Qed.

(** C10, as the code has it: when the form has no [cafe-id] attribute the
    read gives [undefined] and does not throw; the state query leaves with
    [cafe_id=undefined] in its URL; the mutation chosen gets [undefined] as
    its argument, and the body it sends is the empty object, without a
    [cafe_id]. *)
Theorem absent_attribute w :
  like_form_cafe_id w = None ->
  (exists rest,
      events (processLike net w)
      = EvPreventDefault :: EvDebugger :: EvAttr "#like-form" "cafe-id" None
          :: EvFetch (GET "/api/likes?cafe_id=undefined") :: rest)
  /\ forall req, In req (mutations (events (processLike net w))) ->
       (req = POST "/api/like" None \/ req = POST "/api/unlike" None)
       /\ body req = Some "{}".
Proof.
  intros Hw. split.
  - unfold processLike, likeCafe, unlikeCafe. cbn. rewrite Hw. cbn.
    branch net; eexists; reflexivity.
  - intros req Hin.
    destruct (processLike_mutation_is_POST w req Hin) as [-> | ->];
      rewrite Hw; split; auto.
Qed.

End Handler.

(** ** The contract on concrete pages and servers *)

(** C1 does not hold as stated: on a form without the attribute and an
    answer whose [likes] is [true], the one POST to [/api/unlike] has the
    empty object for its body: it carries no identifier. *)
Lemma unlike_carries_no_identifier :
  replying 200 (JObject [("likes", JBool true)]) (query (page None "Liked"))
  = Fulfilled {| status := 200;
                 json_body := Fulfilled (JObject [("likes", JBool true)]) |}
  /\ lookup "likes" [("likes", JBool true)] = Some (JBool true)
  /\ like_form_cafe_id (page None "Liked") = None
  /\ mutations (events (processLike (replying 200 (JObject [("likes", JBool true)]))
                          (page None "Liked")))
     = [{| url := "/api/unlike"; method := "POST"; body := Some "{}";
           headers := [("Content-Type", "application/json")] |}]
  /\ JSON.read_object "{}" = Some [].
Proof. repeat split. Qed.

Lemma likes_true_unlikes_once_witness :
  exists req,
    mutations (events (processLike (answering (JObject [("likes", JBool true)]))
                         (page (Some "7") "Liked")))
    = [req]
    /\ url req = "/api/unlike"
    /\ method req = "POST"
    /\ like_btn_text (after (processLike (answering (JObject [("likes", JBool true)]))
                               (page (Some "7") "Liked"))) = "Like"
    /\ forall s, Some "7" = Some s ->
         exists text, body req = Some text
                      /\ JSON.read_object text = Some [("cafe_id", s)].
Proof.
  exact (likes_true_unlikes_once (answering (JObject [("likes", JBool true)]))
           (page (Some "7") "Liked")
           {| status := 200; json_body := Fulfilled (JObject [("likes", JBool true)]) |}
           [("likes", JBool true)] eq_refl eq_refl eq_refl).
Defined.

Lemma likes_false_likes_once_witness :
  exists req,
    mutations (events (processLike (answering (JObject [("likes", JBool false)]))
                         (page (Some "7") "Like")))
    = [req]
    /\ url req = "/api/like"
    /\ method req = "POST"
    /\ like_btn_text (after (processLike (answering (JObject [("likes", JBool false)]))
                               (page (Some "7") "Like"))) = "Liked".
Proof.
  exact (likes_false_likes_once (answering (JObject [("likes", JBool false)]))
           (page (Some "7") "Like")
           {| status := 200; json_body := Fulfilled (JObject [("likes", JBool false)]) |}
           [("likes", JBool false)] eq_refl eq_refl eq_refl).
Defined.

Lemma query_failure_changes_nothing_witness :
  query_fails offline (page (Some "7") "Like") (TypeError "Failed to fetch")
  /\ result (processLike offline (page (Some "7") "Like"))
     = Throw (TypeError "Failed to fetch")
  /\ mutations (events (processLike offline (page (Some "7") "Like"))) = []
  /\ texts (events (processLike offline (page (Some "7") "Like"))) = []
  /\ like_btn_text (after (processLike offline (page (Some "7") "Like"))) = "Like".
Proof.
  split.
  - left. reflexivity.
  - exact (query_failure_changes_nothing offline (page (Some "7") "Like")
             (TypeError "Failed to fetch") (or_introl eq_refl)).
Defined.

(** The other way for the state query to fail: the response arrives and
    its body is not JSON. *)
Example query_failure_unparsable_body :
  let net : network := fun _ =>
    Fulfilled {| status := 500;
                 json_body := Rejected (SyntaxError "Unexpected token < in JSON") |} in
  let r := processLike net (page (Some "7") "Liked") in
  result r = Throw (SyntaxError "Unexpected token < in JSON")
  /\ fetches (events r) = [GET "/api/likes?cafe_id=7"]
  /\ like_btn_text (after r) = "Liked".
Proof. repeat split. Qed.

(** C5 does not hold as stated: the body [{"error": "Not logged in"}] has no
    [likes] field, and the run is no failure: it returns, after the write of
    "Liked" and the POST to [/api/like]. *)
Lemma missing_likes_field_takes_like_path :
  lookup "likes" [("error", JString "Not logged in")] = None
  /\ result (processLike (answering (JObject [("error", JString "Not logged in")]))
               (page (Some "7") "Like")) = Return tt
  /\ mutations (events (processLike (answering (JObject [("error", JString "Not logged in")]))
                          (page (Some "7") "Like")))
     = [POST "/api/like" (Some "7")]
  /\ texts (events (processLike (answering (JObject [("error", JString "Not logged in")]))
                      (page (Some "7") "Like")))
     = [("#like-btn", "Liked")].
Proof. repeat split. Qed.

Lemma missing_likes_field_witness :
  (JObject [("error", JString "Not logged in")] = JNull ->
     (exists message,
         result (processLike (answering (JObject [("error", JString "Not logged in")]))
                   (page (Some "7") "Like"))
         = Throw (TypeError message))
     /\ mutations (events (processLike (answering (JObject [("error", JString "Not logged in")]))
                             (page (Some "7") "Like"))) = []
     /\ texts (events (processLike (answering (JObject [("error", JString "Not logged in")]))
                         (page (Some "7") "Like"))) = []
     /\ like_btn_text (after (processLike (answering (JObject [("error", JString "Not logged in")]))
                                (page (Some "7") "Like")))
        = "Like")
  /\ (JObject [("error", JString "Not logged in")] <> JNull ->
      (forall members,
          JObject [("error", JString "Not logged in")] = JObject members ->
          lookup "likes" members = None) ->
      get_likes (JObject [("error", JString "Not logged in")]) = inr None
      /\ (exists req,
             mutations (events (processLike (answering (JObject [("error", JString "Not logged in")]))
                                  (page (Some "7") "Like")))
             = [req]
             /\ url req = "/api/like"
             /\ method req = "POST")
      /\ texts (events (processLike (answering (JObject [("error", JString "Not logged in")]))
                          (page (Some "7") "Like")))
         = [("#like-btn", "Liked")]
      /\ like_btn_text (after (processLike (answering (JObject [("error", JString "Not logged in")]))
                                 (page (Some "7") "Like")))
         = "Liked").
Proof.
  exact (missing_likes_field (answering (JObject [("error", JString "Not logged in")]))
           (page (Some "7") "Like")
           {| status := 200;
              json_body := Fulfilled (JObject [("error", JString "Not logged in")]) |}
           (JObject [("error", JString "Not logged in")])
           eq_refl eq_refl).
Defined.

(** The body [null]: the read of [likes] throws. *)
Example null_body_throws :
  let r := processLike (answering JNull) (page (Some "7") "Like") in
  result r = Throw (TypeError "Cannot read properties of null (reading 'likes')")
  /\ mutations (events r) = []
  /\ texts (events r) = []
  /\ like_btn_text (after r) = "Like".
Proof. repeat split. Qed.

(** C9 does not hold as stated: the body [null] parses, and neither [likeCafe]
    nor [unlikeCafe] runs: the only request of the run is the state query,
    nothing is written, and the run throws. *)
Lemma null_body_invokes_neither :
  json_body {| status := 200; json_body := Fulfilled JNull |} = Fulfilled JNull
  /\ answering JNull (query (page (Some "7") "Like"))
     = Fulfilled {| status := 200; json_body := Fulfilled JNull |}
  /\ fetches (events (processLike (answering JNull) (page (Some "7") "Like")))
     = [GET "/api/likes?cafe_id=7"]
  /\ texts (events (processLike (answering JNull) (page (Some "7") "Like"))) = []
  /\ result (processLike (answering JNull) (page (Some "7") "Like"))
     = Throw (TypeError "Cannot read properties of null (reading 'likes')").
Proof. repeat split. Qed.

Lemma branches_on_truthiness_witness :
  exists liked,
    get_likes (JObject [("likes", JString "yes")]) = inr liked
    /\ processLike (answering (JObject [("likes", JString "yes")])) (page (Some "7") "Liked")
       = preceded_by
           (asking (page (Some "7") "Liked")
            ++ [EvJson {| status := 200;
                          json_body := Fulfilled (JObject [("likes", JString "yes")]) |};
                EvAwait (BodyOf {| status := 200;
                                   json_body := Fulfilled (JObject [("likes", JString "yes")]) |})])
           ((if ToBoolean liked
             then unlikeCafe (answering (JObject [("likes", JString "yes")]))
             else likeCafe (answering (JObject [("likes", JString "yes")])))
              (Some "7") (prevented (page (Some "7") "Liked")))
    /\ mutations (events (processLike (answering (JObject [("likes", JString "yes")]))
                            (page (Some "7") "Liked")))
       = [POST (if ToBoolean liked then "/api/unlike" else "/api/like") (Some "7")]
    /\ forall members,
         JObject [("likes", JString "yes")] = JObject members ->
         lookup "likes" members = None ->
         liked = None
         /\ mutations (events (processLike (answering (JObject [("likes", JString "yes")]))
                                 (page (Some "7") "Liked")))
            = [POST "/api/like" (Some "7")].
Proof.
  refine (branches_on_truthiness (answering (JObject [("likes", JString "yes")]))
            (page (Some "7") "Liked")
            {| status := 200; json_body := Fulfilled (JObject [("likes", JString "yes")]) |}
            (JObject [("likes", JString "yes")]) eq_refl eq_refl _).
  discriminate.
Defined.

(** Truthiness at work: a string, a number, an array send the unlike; zero,
    the empty string, [null] as the field's value send the like. *)
Example truthy_values_unlike :
  map (fun v => map url (mutations (events
         (processLike (answering (JObject [("likes", v)])) (page (Some "7") "Liked")))))
    [JString "no"; JNumber (S754_finite false BinNums.xH BinNums.Z0); JArray []; JObject [];
     JNumber (S754_zero true); JString ""; JNull]
  = [["/api/unlike"]; ["/api/unlike"]; ["/api/unlike"]; ["/api/unlike"];
     ["/api/like"]; ["/api/like"]; ["/api/like"]].
Proof. reflexivity. Qed.

(** C6 does not hold as stated: on a form without the attribute the mutation
    request's body is the empty object: no key [cafe_id] in it. *)
Lemma mutation_body_without_cafe_id :
  mutations (events (processLike (answering (JObject [("likes", JBool true)]))
                       (page None "Liked")))
  = [{| url := "/api/unlike"; method := "POST"; body := Some "{}";
        headers := [("Content-Type", "application/json")] |}]
  /\ JSON.read_object "{}" = Some []
  /\ lookup "cafe_id" (@nil (string * string)) = None.
Proof. repeat split. Qed.

Lemma mutation_body_is_cafe_id_json_witness :
  method (POST "/api/like" (Some "7")) = "POST"
  /\ headers (POST "/api/like" (Some "7")) = [("Content-Type", "application/json")]
  /\ exists text, body (POST "/api/like" (Some "7")) = Some text
                  /\ JSON.read_object text = Some [("cafe_id", "7")].
Proof.
  exact (mutation_body_is_cafe_id_json (answering (JObject [("likes", JBool false)]))
           (page (Some "7") "Like") "7" (POST "/api/like" (Some "7"))
           eq_refl (or_introl eq_refl)).
Defined.

(** C10 does not hold as stated: on a form without the attribute the URL of the
    state query has the text [undefined], and the body of the mutation
    request has not: it is the empty object. *)
Lemma absent_attribute_not_in_body :
  fetches (events (processLike (answering (JObject [("likes", JBool false)]))
                     (page None "Like")))
  = [GET "/api/likes?cafe_id=undefined";
     {| url := "/api/like"; method := "POST"; body := Some "{}";
        headers := [("Content-Type", "application/json")] |}]
  /\ JSON.read_object "{}" = Some []
  /\ JSON.read_object "{}" <> Some [("cafe_id", "undefined")].
Proof. repeat split. discriminate. Qed.

Lemma absent_attribute_witness :
  (exists rest,
      events (processLike (answering (JObject [("likes", JBool false)])) (page None "Like"))
      = EvPreventDefault :: EvDebugger :: EvAttr "#like-form" "cafe-id" None
          :: EvFetch (GET "/api/likes?cafe_id=undefined") :: rest)
  /\ forall req,
       In req (mutations (events (processLike (answering (JObject [("likes", JBool false)]))
                                    (page None "Like")))) ->
       (req = POST "/api/like" None \/ req = POST "/api/unlike" None)
       /\ body req = Some "{}".
Proof.
  exact (absent_attribute (answering (JObject [("likes", JBool false)]))
           (page None "Like") eq_refl).
Defined.

(** On a server that never answers a mutation the handler stays suspended
    in [likeCafe], and the page shows "Liked". *)
Example label_shown_while_response_is_delayed :
  let w := page (Some "7") "Like" in
  let resp := {| status := 200; json_body := Fulfilled (JObject [("likes", JBool false)]) |} in
  let r := processLike (stalling (JObject [("likes", JBool false)])) w in
  result r = Suspended
  /\ like_btn_text (after r) = "Liked"
  /\ events r = (asking w ++ [EvJson resp; EvAwait (BodyOf resp)]
                 ++ posting "Liked" (POST "/api/like" (Some "7")))%list.
Proof. repeat split. Qed.

(** ** Every run of the handler *)

Section Runs.

Variable net : network.

Ltac every_run :=
  unfold processLike, likeCafe, unlikeCafe, query, mutations; cbn; branch net.

(** The requests of a run: the state query, then the mutations. *)
Lemma processLike_fetches w :
  fetches (events (processLike net w)) = query w :: mutations (events (processLike net w)).
Proof. every_run; reflexivity. Qed.

(** The script never touches the form. *)
Lemma processLike_keeps_form w :
  like_form_cafe_id (after (processLike net w)) = like_form_cafe_id w.
Proof. every_run; reflexivity. Qed.

(** X1: in every run the state query is the first request and the only one
    that is not a mutation; at most one mutation follows it, the POST to
    [/api/like] or the POST to [/api/unlike], made from the form's
    identifier. *)
Theorem fetches_in_order w :
  fetches (events (processLike net w)) = query w :: mutations (events (processLike net w))
  /\ (mutations (events (processLike net w)) = []
      \/ mutations (events (processLike net w)) = [POST "/api/like" (like_form_cafe_id w)]
      \/ mutations (events (processLike net w)) = [POST "/api/unlike" (like_form_cafe_id w)]).
Proof. every_run; auto. Qed.

(** X2: in every run the button's text is written exactly when a mutation
    request leaves, and it is the text of that mutation ("Liked" with
    [/api/like], "Like" with [/api/unlike]); the button ends with the text
    written, or with the text it had when nothing was written; the form's
    attribute is never changed. *)
Theorem label_follows_mutation w :
  texts (events (processLike net w)) = map label_of (mutations (events (processLike net w)))
  /\ like_btn_text (after (processLike net w))
     = last (map snd (texts (events (processLike net w)))) (like_btn_text w)
  /\ like_form_cafe_id (after (processLike net w)) = like_form_cafe_id w.
Proof. every_run; auto. Qed.

(** X3: [console.log] runs at most once in a run, and exactly in the runs
    that return: what it prints is the parsed body of the response to the
    one mutation request.  A run that throws or stays suspended prints
    nothing. *)
Theorem logged_iff_returned w :
  match result (processLike net w) with
  | Return _ =>
      exists req resp data,
        mutations (events (processLike net w)) = [req]
        /\ net req = Fulfilled resp
        /\ json_body resp = Fulfilled data
        /\ logs (events (processLike net w)) = [data]
  | _ => logs (events (processLike net w)) = []
  end.
Proof.
  every_run; try reflexivity; do 3 eexists; repeat split; eassumption.
Qed.

(** X4: a mutation that fails is not rolled back.  When the state query is
    answered and the chosen mutation fails (its [fetch] rejects, or the
    body of its response does not parse), the run throws that failure,
    nothing is printed, and the button keeps the text written before the
    request left. *)
Theorem mutation_failure_not_rolled_back w resp v liked e :
  net (query w) = Fulfilled resp ->
  json_body resp = Fulfilled v ->
  get_likes v = inr liked ->
  fails net (chosen liked (like_form_cafe_id w)) e ->
  result (processLike net w) = Throw e
  /\ like_btn_text (after (processLike net w)) = (if ToBoolean liked then "Like" else "Liked")
  /\ mutations (events (processLike net w)) = [chosen liked (like_form_cafe_id w)]
  /\ logs (events (processLike net w)) = [].
Proof.
  intros H1 H2 H3 Hfail.
  destruct (processLike_answered_does net w resp v liked H1 H2 H3) as (Hm & _ & Hl).
  split; [| split; [exact Hl | split; [exact Hm |]]];
    rewrite (processLike_answered net w resp v liked H1 H2 H3);
    unfold preceded_by, chosen, fails in *; cbn [result events];
    destruct (ToBoolean liked); unfold likeCafe, unlikeCafe; cbn;
    destruct Hfail as [Hf | (resp' & Hf & Hb)]; cbn in Hf;
    rewrite Hf; cbn; try rewrite Hb; reflexivity.
Qed.

(** X5: a state query that hangs blocks the run for good.  When its
    [fetch] never settles, or the body of its response never arrives, the
    run stays suspended having sent the query alone: no mutation, no write
    to the page, the button as it was. *)
Theorem hung_query_blocks w :
  hangs net (query w) ->
  result (processLike net w) = Suspended
  /\ fetches (events (processLike net w)) = [query w]
  /\ texts (events (processLike net w)) = []
  /\ like_btn_text (after (processLike net w)) = like_btn_text w.
Proof.
  intros [H | (resp & H1 & H2)].
  - rewrite (processLike_pending net w H). repeat split.
  - rewrite (processLike_body_pending net w resp H1 H2). repeat split.
Qed.

(** X6: the handler keeps no state between submissions.  On two pages
    whose forms carry the same identifier a run ends the same way and does
    the same things, whatever the button shows and whether or not the
    event's default was prevented already; once a text is written the
    pages left are the same too. *)
Theorem run_ignores_label w1 w2 :
  like_form_cafe_id w1 = like_form_cafe_id w2 ->
  result (processLike net w1) = result (processLike net w2)
  /\ events (processLike net w1) = events (processLike net w2)
  /\ (texts (events (processLike net w1)) <> [] ->
      after (processLike net w1) = after (processLike net w2)).
Proof.
  destruct w1 as [d1 id1 l1], w2 as [d2 id2 l2]. cbn [like_form_cafe_id].
  intros ->. every_run; repeat split; intros Hw; now destruct Hw.
Qed.

End Runs.

(** X7: the status of a response is never looked at.  On two networks
    whose answers differ in nothing but the status of the responses, a run
    ends the same way, leaves the same page, sends the same requests,
    writes the same texts and prints the same. *)
Theorem status_ignored (net1 net2 : network) w :
  (forall req, body_of (net1 req) = body_of (net2 req)) ->
  result (processLike net1 w) = result (processLike net2 w)
  /\ after (processLike net1 w) = after (processLike net2 w)
  /\ fetches (events (processLike net1 w)) = fetches (events (processLike net2 w))
  /\ texts (events (processLike net1 w)) = texts (events (processLike net2 w))
  /\ logs (events (processLike net1 w)) = logs (events (processLike net2 w)).
Proof.
  intros H.
  unfold processLike, likeCafe, unlikeCafe. cbn.
  repeat match goal with
    | E : ?x = ?x |- _ => clear E
    | E : Fulfilled _ = Fulfilled _ |- _ => injection E as E
    | E : Rejected _ = Rejected _ |- _ => injection E as E
    | E : ?x = ?y |- _ => is_var x; is_var y; subst y
    | E : json_body ?r1 = json_body ?r2 |- _ =>
        destruct (json_body r1) as [? | ? | ], (json_body r2) as [? | ? | ];
        try discriminate E; cbn
    | |- context [net1 ?req] =>
        let E := fresh "E" in
        pose proof (H req) as E;
        destruct (net1 req) as [? | ? | ], (net2 req) as [? | ? | ];
        cbn in E; try discriminate E; cbn
    | |- context [get_likes ?v] => destruct (get_likes v) as [? | ?]; cbn
    | |- context [ToBoolean ?v] => destruct (ToBoolean v); cbn
    end; repeat split.
Qed.

(** X8: the body of a mutation request determines the identifier it was
    made from: two bodies are equal only when they come from the same
    identifier, or both from a form without one. *)
Theorem mutation_body_determines_id u1 u2 (a b : option string) :
  body (POST u1 a) = body (POST u2 b) -> a = b.
Proof.
  intros H.
  change (Some (JSON.stringify [("cafe_id", a)]) = Some (JSON.stringify [("cafe_id", b)])) in H.
  apply (f_equal (fun o => match o with
                           | Some text => JSON.read_object text
                           | None => None
                           end)) in H.
  cbv beta iota in H.
  assert (Hempty : forall k, JSON.read_object (JSON.stringify [(k, None)]) = Some [])
    by reflexivity.
  destruct a as [sa |], b as [sb |];
    rewrite ?JSONFacts.read_object_stringify_one, ?Hempty in H; congruence.
Qed.

(** ** The toggle against a server that stores the like *)

Section LikeStore.

Variable state : Type.
Variable serve : state -> request -> state * settled response.

(** Whether the server, in a state, holds the like of the user for the cafe
    of the form. *)
Variable stored : state -> bool.
Variable cafeId : option string.

(** The state query is answered with the like held. *)
Hypothesis query_reads : forall s,
  exists resp members,
    snd (serve s (GET ("/api/likes?cafe_id=" ++ ToString cafeId))) = Fulfilled resp
    /\ json_body resp = Fulfilled (JObject members)
    /\ lookup "likes" members = Some (JBool (stored s)).

(** The two mutations reach the server and do what their names say. *)
Hypothesis like_stores : forall s,
  stored (fst (serve s (POST "/api/like" cafeId))) = true.
Hypothesis unlike_removes : forall s,
  stored (fst (serve s (POST "/api/unlike" cafeId))) = false.

Lemma submission_toggles s w :
  like_form_cafe_id w = cafeId ->
  stored (fst (submission serve (s, w))) = negb (stored s)
  /\ like_btn_text (snd (submission serve (s, w))) = (if stored s then "Like" else "Liked")
  /\ like_form_cafe_id (snd (submission serve (s, w))) = cafeId.
Proof.
  intros Hid. unfold submission, on_submit. cbn [fst snd].
  set (w0 := {| defaultPrevented := false;
                like_form_cafe_id := like_form_cafe_id w;
                like_btn_text := like_btn_text w |}).
  set (net := meeting serve s w).
  destruct (query_reads s) as (resp & members & Hresp & Hbody & Hlikes).
  assert (Hq : net (query w0) = Fulfilled resp).
  { subst net w0. unfold meeting, query. cbn. rewrite Hid. exact Hresp. }
  assert (Hget : get_likes (JObject members) = inr (Some (JBool (stored s))))
    by (cbn [get_likes]; now rewrite Hlikes).
  destruct (processLike_answered_does net w0 resp _ _ Hq Hbody Hget) as (Hm & _ & Hl).
  rewrite processLike_keeps_form, processLike_fetches, Hm, Hl.
  cbn [ToBoolean like_form_cafe_id w0]. rewrite Hid.
  repeat split.
  unfold served, query. cbn [fold_left like_form_cafe_id w0]. rewrite Hid.
  destruct (stored s); [apply unlike_removes | apply like_stores].
Qed.

(** X9: against a server that holds the like, answers the state query with
    it and stores or removes it on the two mutations, every submission
    flips the like held, and after it the button shows "Liked" exactly when
    the like is held; so after [n] submissions, each run to its end before
    the next, the like is flipped [n] times. *)
Theorem submissions_toggle n s w :
  like_form_cafe_id w = cafeId ->
  stored (fst (submissions serve n (s, w)))
  = (if Nat.even n then stored s else negb (stored s))
  /\ (n <> 0 ->
      like_btn_text (snd (submissions serve n (s, w)))
      = if stored (fst (submissions serve n (s, w))) then "Liked" else "Like").
Proof.
  revert s w. induction n as [| n IH]; intros s w Hid.
  - split; [reflexivity | intros H; now destruct H].
  - cbn [submissions]. destruct (submission_toggles s w Hid) as (Hs & Hl & Hf).
    destruct (submission serve (s, w)) as [s1 w1]. cbn [fst snd] in Hs, Hl, Hf.
    destruct (IH s1 w1 Hf) as [IHs IHl]. split.
    + rewrite IHs, Hs, Nat.even_succ, <- Nat.negb_even.
      destruct (Nat.even n), (stored s); reflexivity.
    + intros _. destruct n as [| n'].
      * cbn [submissions fst snd]. rewrite Hl, Hs. destruct (stored s); reflexivity.
      * apply IHl. discriminate.
Qed.

End LikeStore.

(** ** Runs on concrete pages and servers, again *)

Lemma mutation_failure_not_rolled_back_witness :
  result (processLike (failing (JObject [("likes", JBool false)]) (TypeError "Failed to fetch"))
            (page (Some "7") "Like"))
  = Throw (TypeError "Failed to fetch")
  /\ like_btn_text (after (processLike
                             (failing (JObject [("likes", JBool false)])
                                (TypeError "Failed to fetch"))
                             (page (Some "7") "Like")))
     = (if ToBoolean (Some (JBool false)) then "Like" else "Liked")
  /\ mutations (events (processLike
                          (failing (JObject [("likes", JBool false)])
                             (TypeError "Failed to fetch"))
                          (page (Some "7") "Like")))
     = [chosen (Some (JBool false)) (Some "7")]
  /\ logs (events (processLike
                     (failing (JObject [("likes", JBool false)])
                        (TypeError "Failed to fetch"))
                     (page (Some "7") "Like")))
     = [].
Proof.
  exact (mutation_failure_not_rolled_back
           (failing (JObject [("likes", JBool false)]) (TypeError "Failed to fetch"))
           (page (Some "7") "Like")
           {| status := 200; json_body := Fulfilled (JObject [("likes", JBool false)]) |}
           (JObject [("likes", JBool false)]) (Some (JBool false))
           (TypeError "Failed to fetch")
           eq_refl eq_refl eq_refl (or_introl eq_refl)).
Defined.

Lemma hung_query_blocks_witness :
  result (processLike hanging (page (Some "7") "Like")) = Suspended
  /\ fetches (events (processLike hanging (page (Some "7") "Like")))
     = [query (page (Some "7") "Like")]
  /\ texts (events (processLike hanging (page (Some "7") "Like"))) = []
  /\ like_btn_text (after (processLike hanging (page (Some "7") "Like"))) = "Like".
Proof.
  exact (hung_query_blocks hanging (page (Some "7") "Like") (or_introl eq_refl)).
Defined.

Lemma run_ignores_label_witness :
  result (processLike (answering (JObject [("likes", JBool true)])) (page (Some "7") "Like"))
  = result (processLike (answering (JObject [("likes", JBool true)])) (page (Some "7") "Liked"))
  /\ events (processLike (answering (JObject [("likes", JBool true)])) (page (Some "7") "Like"))
     = events (processLike (answering (JObject [("likes", JBool true)])) (page (Some "7") "Liked"))
  /\ (texts (events (processLike (answering (JObject [("likes", JBool true)]))
                       (page (Some "7") "Like"))) <> [] ->
      after (processLike (answering (JObject [("likes", JBool true)])) (page (Some "7") "Like"))
      = after (processLike (answering (JObject [("likes", JBool true)])) (page (Some "7") "Liked"))).
Proof.
  exact (run_ignores_label (answering (JObject [("likes", JBool true)]))
           (page (Some "7") "Like") (page (Some "7") "Liked") eq_refl).
Defined.

Lemma status_ignored_witness :
  result (processLike (replying 200 (JObject [("likes", JBool true)])) (page (Some "7") "Liked"))
  = result (processLike (replying 401 (JObject [("likes", JBool true)])) (page (Some "7") "Liked"))
  /\ after (processLike (replying 200 (JObject [("likes", JBool true)])) (page (Some "7") "Liked"))
     = after (processLike (replying 401 (JObject [("likes", JBool true)])) (page (Some "7") "Liked"))
  /\ fetches (events (processLike (replying 200 (JObject [("likes", JBool true)]))
                        (page (Some "7") "Liked")))
     = fetches (events (processLike (replying 401 (JObject [("likes", JBool true)]))
                          (page (Some "7") "Liked")))
  /\ texts (events (processLike (replying 200 (JObject [("likes", JBool true)]))
                      (page (Some "7") "Liked")))
     = texts (events (processLike (replying 401 (JObject [("likes", JBool true)]))
                        (page (Some "7") "Liked")))
  /\ logs (events (processLike (replying 200 (JObject [("likes", JBool true)]))
                     (page (Some "7") "Liked")))
     = logs (events (processLike (replying 401 (JObject [("likes", JBool true)]))
                       (page (Some "7") "Liked"))).
Proof.
  exact (status_ignored (replying 200 (JObject [("likes", JBool true)]))
           (replying 401 (JObject [("likes", JBool true)]))
           (page (Some "7") "Liked") (fun _ => eq_refl)).
Defined.

(** A response with the status 401 and a body without [likes] is taken for
    the answer "not liked": the run likes the cafe. *)
Example refusal_taken_for_not_liked :
  let r := processLike (replying 401 (JObject [("error", JString "Not logged in")]))
             (page (Some "7") "Like") in
  result r = Return tt
  /\ mutations (events r) = [POST "/api/like" (Some "7")]
  /\ like_btn_text (after r) = "Liked"
  /\ logs (events r) = [JObject [("error", JString "Not logged in")]].
Proof. repeat split. Qed.

Lemma mutation_body_determines_id_witness : Some "7" = Some "7".
Proof.
  exact (mutation_body_determines_id "/api/like" "/api/unlike" (Some "7") (Some "7") eq_refl).
Defined.

(** The URL of the state query is less exact: a form without the attribute
    and a form whose attribute is the text [undefined] send the same
    query, and bodies that differ. *)
Example query_of_undefined :
  query (page None "Like") = query (page (Some "undefined") "Like")
  /\ body (POST "/api/like" None) <> body (POST "/api/like" (Some "undefined")).
Proof. split; [reflexivity | discriminate]. Qed.

Lemma submissions_toggle_witness :
  fst (submissions like_store 3 (false, page (Some "7") "Like"))
  = (if Nat.even 3 then false else negb false)
  /\ (3 <> 0 ->
      like_btn_text (snd (submissions like_store 3 (false, page (Some "7") "Like")))
      = if fst (submissions like_store 3 (false, page (Some "7") "Like"))
        then "Liked" else "Like").
Proof.
  refine (submissions_toggle bool like_store (fun liked => liked) (Some "7") _ _ _
            3 false (page (Some "7") "Like") eq_refl).
  - intros liked. do 2 eexists. repeat split.
  - intros liked. reflexivity.
  - intros liked. reflexivity.
Defined.

(** Three submissions against the like store, from "not liked". *)
Example three_submissions :
  map (fun n => let sw := submissions like_store n (false, page (Some "7") "Like") in
                (fst sw, like_btn_text (snd sw)))
    [0; 1; 2; 3]
  = [(false, "Like"); (true, "Liked"); (false, "Like"); (true, "Liked")].
Proof. reflexivity. Qed.
